(** * Strictness levels of [sorbet::core]

    A verification model of [core/StrictLevel.h].  The header consists of one
    scoped enumeration, [enum class StrictLevel], whose nine enumerators carry
    explicit integer discriminants.  Every other component of the type
    checker decides what to report for a file by comparing the file's level
    with a threshold, so the facts worth proving are facts about the
    discriminants and about the order they induce. *)

From stdpp Require Import base decidable numbers list finite.

Local Open Scope Z_scope.

(** The scoped enumeration becomes a module: [StrictLevel.None] here is
    [StrictLevel::None] there, and the enumerator [None] does not leak into
    the enclosing name space. *)
Module StrictLevel.

(** ** The enumeration *)

(** The enumerators, in the order of their declaration. *)
Inductive t : Set :=
  | Internal
  | None
  | Ignore
  | Stripe
  | Typed
  | Strict
  | Strong
  | Max
  | Autogenerated.

(** The enumeration names no underlying type, so it is [int]; we take the
    32-bit two's complement [int] of the platforms Sorbet builds for. *)
Definition int_min : Z := - 2 ^ 31.
Definition int_max : Z := 2 ^ 31 - 1.

(** The discriminant written next to each enumerator, which is what
    [static_cast<int>(level)] yields.  The specification calls it the rank of
    the level. *)
Definition rankOf (level : t) : Z :=
  match level with
  | Internal => 0
  | None => 1
  | Ignore => 2
  | Stripe => 3
  | Typed => 4
  | Strict => 5
  | Strong => 6
  | Max => 7
  | Autogenerated => 10
  end.

(** Every value of the type, in declaration order. *)
Definition all : list t :=
  [Internal; None; Ignore; Stripe; Typed; Strict; Strong; Max; Autogenerated].

(** ** Built-in operators

    C++ equips a scoped enumeration with the equality and relational
    operators, and nothing else; each of them compares the underlying values
    of its two operands.  Call sites write [level < StrictLevel::Strict],
    [level >= StrictLevel::Typed], [level == StrictLevel::Internal]. *)
Definition op_eq (a b : t) : bool := rankOf a =? rankOf b.
Definition op_lt (a b : t) : bool := rankOf a <? rankOf b.
Definition op_gt (a b : t) : bool := rankOf a >? rankOf b.
Definition op_le (a b : t) : bool := rankOf a <=? rankOf b.
Definition op_ge (a b : t) : bool := rankOf a >=? rankOf b.

(** ** The operations of the contract

    The header declares the enumeration and no function: Sorbet writes the
    built-in operators directly wherever it needs them.  The specification
    (section 4.1) names four operations, [rankOf], [compare], [atLeast] and
    [isInternal].  [rankOf] is the discriminant above.  The other three are
    given here as the expression over the built-in operators that each name
    stands for. *)

(** Outcome of a three-way comparison. *)
Inductive ordering : Set := less | equal | greater.

(** Modelled from the spec: the header has no three-way comparison; section
    4.1 asks for the order by rank with the outcomes less, equal and greater.
    On the enumeration that is [a < b ? less : a == b ? equal : greater]. *)
Definition compare (a b : t) : ordering :=
  if op_lt a b then less else if op_eq a b then equal else greater.

(** Modelled from the spec: the header has no function of this name; section
    4.1 defines it as [rankOf(level) >= rankOf(threshold)], which on the
    enumeration is [level >= threshold]. *)
Definition atLeast (level threshold : t) : bool := op_ge level threshold.

(** Modelled from the spec: the header has no function of this name; section
    4.1 makes it true only for Internal, which on the enumeration is
    [level == StrictLevel::Internal]. *)
Definition isInternal (level : t) : bool := op_eq level Internal.

(** The levels of the standard progression that lie strictly between
    [Internal] and [Max]. *)
Definition standard_below_max : list t :=
  [None; Ignore; Stripe; Typed; Strict; Strong].

(** The ranks in use. *)
Definition ranks : list Z := [0; 1; 2; 3; 4; 5; 6; 7; 10].

(** The order that [atLeast] decides, as a relation. *)
Definition le (a b : t) : Prop := atLeast b a = true.

(** ** Structure of the type *)

#[export] Instance eq_dec : EqDecision t.
Proof. solve_decision. Defined.

Lemma all_NoDup : NoDup all.
Proof. compute_done. Qed.

Lemma elem_of_all (level : t) : level ∈ all.
Proof. destruct level; compute_done. Qed.

#[export] Instance finite : Finite t :=
  {| enum := all; NoDup_enum := all_NoDup; elem_of_enum := elem_of_all |}.

Lemma rankOf_int_range (level : t) : int_min <= rankOf level <= int_max.
Proof. destruct level; unfold int_min, int_max; simpl; lia. Qed.

#[export] Instance rankOf_inj : Inj (=) (=) rankOf.
Proof. intros [] [] H; first [reflexivity | discriminate H]. Qed.

Lemma rankOf_all : rankOf <$> all = ranks.
Proof. reflexivity. Qed.

Lemma elem_of_ranks (z : Z) : z ∈ ranks ↔ ∃ level, rankOf level = z.
Proof.
  rewrite <- rankOf_all, list_elem_of_fmap. split.
  - intros (level & -> & _). by exists level.
  - intros (level & <-). exists level. split; [done | apply elem_of_all].
Qed.

(** ** The built-in operators, read on ranks *)

Lemma op_lt_true (a b : t) : op_lt a b = true ↔ rankOf a < rankOf b.
Proof. apply Z.ltb_lt. Qed.

Lemma op_gt_true (a b : t) : op_gt a b = true ↔ rankOf b < rankOf a.
Proof. unfold op_gt. rewrite Z.gtb_ltb. apply Z.ltb_lt. Qed.

Lemma op_le_true (a b : t) : op_le a b = true ↔ rankOf a <= rankOf b.
Proof. apply Z.leb_le. Qed.

Lemma op_ge_true (a b : t) : op_ge a b = true ↔ rankOf b <= rankOf a.
Proof. unfold op_ge. rewrite Z.geb_leb. apply Z.leb_le. Qed.

(** Equality of levels is equality of values: two enumerators never share a
    discriminant. *)
Lemma op_eq_true (a b : t) : op_eq a b = true ↔ a = b.
Proof.
  unfold op_eq. rewrite Z.eqb_eq. split; [apply (inj rankOf) | by intros ->].
Qed.

Lemma op_ge_negb_lt (a b : t) : op_ge a b = negb (op_lt a b).
Proof. unfold op_ge, op_lt. rewrite Z.geb_leb. apply Z.leb_antisym. Qed.

(** ** The three outcomes of [compare] *)

(** Splits on the two tests [compare] makes and leaves linear arithmetic on
    the two ranks. *)
Ltac compare_by_rank a b :=
  unfold compare, op_lt, op_eq;
  destruct (Z.ltb_spec (rankOf a) (rankOf b)), (Z.eqb_spec (rankOf a) (rankOf b));
  split; intros; (done || lia).

Lemma compare_less (a b : t) : compare a b = less ↔ rankOf a < rankOf b.
Proof. compare_by_rank a b. Qed.

Lemma compare_equal (a b : t) : compare a b = equal ↔ rankOf a = rankOf b.
Proof. compare_by_rank a b. Qed.

Lemma compare_greater (a b : t) : compare a b = greater ↔ rankOf b < rankOf a.
Proof. compare_by_rank a b. Qed.

(** [compare] is the comparison of the two integers and of nothing else. *)
Lemma compare_Zcompare (a b : t) :
  compare a b =
    match rankOf a ?= rankOf b with Lt => less | Eq => equal | Gt => greater end.
Proof.
  destruct (Z.compare_spec (rankOf a) (rankOf b)) as [Heq | Hlt | Hgt].
  - by apply compare_equal.
  - by apply compare_less.
  - by apply compare_greater.
Qed.

Lemma compare_not_greater (a b : t) :
  compare a b ≠ greater ↔ rankOf a <= rankOf b.
Proof. rewrite compare_greater. lia. Qed.

Lemma compare_equal_eq (a b : t) : compare a b = equal ↔ a = b.
Proof.
  rewrite compare_equal. split; [apply (inj rankOf) | by intros ->].
Qed.

Lemma atLeast_true (level threshold : t) :
  atLeast level threshold = true ↔ rankOf threshold <= rankOf level.
Proof. apply op_ge_true. Qed.

Lemma atLeast_false (level threshold : t) :
  atLeast level threshold = false ↔ rankOf level < rankOf threshold.
Proof.
  rewrite <- not_true_iff_false, atLeast_true. lia.
Qed.

(** [atLeast] answers what [compare] answers. *)
Lemma atLeast_compare (level threshold : t) :
  atLeast level threshold = true ↔ compare level threshold ≠ less.
Proof. rewrite atLeast_true, compare_less. lia. Qed.

(** ** The order on levels *)

#[export] Instance le_dec : RelDecision le.
Proof. intros a b. unfold le. apply _. Defined.

#[export] Instance le_po : PartialOrder le.
Proof.
  split; [split |].
  - intros a. unfold le. rewrite atLeast_true. lia.
  - intros a b c. unfold le. rewrite !atLeast_true. lia.
  - intros a b. unfold le. rewrite !atLeast_true. intros Hab Hba.
    apply (inj rankOf). lia.
Qed.

#[export] Instance le_total_order : TotalOrder le.
Proof.
  split; [apply _ |].
  intros a b. unfold strict, le. rewrite !atLeast_true.
  destruct (Z.lt_trichotomy (rankOf a) (rankOf b)) as [Hlt | [Heq | Hgt]].
  - left. lia.
  - right; left. by apply (inj rankOf).
  - right; right. lia.
Qed.

Lemma elem_of_standard_below_max (level : t) :
  level ∈ standard_below_max ↔ rankOf Internal < rankOf level < rankOf Max.
Proof.
  destruct level; split; intros H;
    first [ simpl in *; lia
          | compute_done
          | apply list_elem_of_In in H; simpl in H; intuition discriminate ].
Qed.

Lemma isInternal_true (level : t) : isInternal level = true ↔ level = Internal.
Proof. apply op_eq_true. Qed.

(** ** Properties of the contract *)

(** C1.  The discriminants are Internal = 0, None = 1, Ignore = 2, Stripe = 3,
    Typed = 4, Strict = 5, Strong = 6, Max = 7 and Autogenerated = 10.  These
    nine enumerators are all the levels there are, each of them has a rank
    (which fits the underlying [int]), and no two levels share a rank: the
    correspondence between levels and ranks in use is one to one. *)
Theorem rankOf_table :
  (rankOf Internal = 0 ∧ rankOf None = 1 ∧ rankOf Ignore = 2 ∧
   rankOf Stripe = 3 ∧ rankOf Typed = 4 ∧ rankOf Strict = 5 ∧
   rankOf Strong = 6 ∧ rankOf Max = 7 ∧ rankOf Autogenerated = 10)
  ∧ (∀ level : t,
       level ∈ [Internal; None; Ignore; Stripe; Typed; Strict; Strong; Max;
                Autogenerated])
  ∧ (∀ level : t,
       rankOf level ∈ [0; 1; 2; 3; 4; 5; 6; 7; 10] ∧
       int_min <= rankOf level <= int_max)
  ∧ (∀ a b : t, rankOf a = rankOf b → a = b)
  ∧ (∀ z : Z, z ∈ [0; 1; 2; 3; 4; 5; 6; 7; 10] → ∃ level, rankOf level = z).
Proof.
  split; [by repeat split |]. split; [apply elem_of_all |].
  split; [| split].
  - intros level. split; [| apply rankOf_int_range].
    apply elem_of_ranks. by exists level.
  - apply (inj rankOf).
  - intros z. apply elem_of_ranks.
Qed.

(** C2.  Autogenerated has rank 10 and Max has rank 7, so Autogenerated lies
    strictly above Max and [atLeast Autogenerated Max] holds.  Nothing treats
    the outlier specially: against every level, [atLeast] answers for
    Autogenerated what the comparison of the integer 10 with the other rank
    answers, and it does not answer what it answers for Strict, the level
    Autogenerated mirrors. *)
Theorem autogenerated_above_max :
  rankOf Autogenerated = 10 ∧ rankOf Max = 7
  ∧ rankOf Max < rankOf Autogenerated
  ∧ atLeast Autogenerated Max = true
  ∧ (∀ level : t,
       atLeast Autogenerated level = (10 >=? rankOf level) ∧
       atLeast level Autogenerated = (rankOf level >=? 10))
  ∧ atLeast Strict Max = false.
Proof. by repeat split. Qed.

(** C3.  [compare] is the total order of the ranks.  Each pair of levels has
    exactly one of the three outcomes, and the outcome is the one the two ranks
    dictate; a level is equal to itself; swapping the arguments swaps less and
    greater, and two levels neither of which is greater than the other are the
    same level; less composes with less, and so does not-greater with
    not-greater.  Autogenerated is one of the levels quantified over. *)
Theorem compare_total_order :
  (∀ a b : t,
     (compare a b = less ∧ compare a b ≠ equal ∧ compare a b ≠ greater ∧
      rankOf a < rankOf b) ∨
     (compare a b = equal ∧ compare a b ≠ less ∧ compare a b ≠ greater ∧
      rankOf a = rankOf b) ∨
     (compare a b = greater ∧ compare a b ≠ less ∧ compare a b ≠ equal ∧
      rankOf a > rankOf b))
  ∧ (∀ a : t, compare a a = equal)
  ∧ (∀ a b : t, compare a b = less ↔ compare b a = greater)
  ∧ (∀ a b : t, compare a b ≠ greater → compare b a ≠ greater → a = b)
  ∧ (∀ a b c : t, compare a b = less → compare b c = less → compare a c = less)
  ∧ (∀ a b c : t,
       compare a b ≠ greater → compare b c ≠ greater → compare a c ≠ greater).
Proof.
  repeat split.
  - intros a b.
    destruct (compare a b) eqn:Hc; [left | right; left | right; right];
      repeat split; try done.
    + by apply compare_less.
    + by apply compare_equal.
    + apply compare_greater in Hc. lia.
  - intros a. by apply compare_equal.
  - rewrite compare_less, compare_greater. lia.
  - rewrite compare_less, compare_greater. lia.
  - intros a b. rewrite !compare_not_greater. intros Hab Hba.
    apply (inj rankOf). lia.
  - intros a b c. rewrite !compare_less. lia.
  - intros a b c. rewrite !compare_not_greater. lia.
Qed.

Lemma compare_total_order_witness :
  compare Internal Max = less ∧ compare Max Autogenerated = less ∧
  compare Internal Autogenerated = less.
Proof.
  split; [reflexivity |]. split; [reflexivity |].
  apply (proj1 (proj2 (proj2 (proj2 (proj2 compare_total_order))))
           Internal Max Autogenerated); reflexivity.
Defined.

(** C4.  Internal is strictly below every other level. *)
Theorem internal_lowest (L : t) : L ≠ Internal → compare Internal L = less.
Proof.
  intros HL. apply compare_less.
  destruct L; simpl; first [lia | by destruct HL].
Qed.

Lemma internal_lowest_witness :
  Autogenerated ≠ Internal ∧ compare Internal Autogenerated = less.
Proof.
  split; [discriminate | apply (internal_lowest Autogenerated); discriminate].
Defined.

(** C5.  Max is strictly above each of None, Ignore, Stripe, Typed, Strict and
    Strong. *)
Theorem max_above_standard (L : t) :
  L ∈ [None; Ignore; Stripe; Typed; Strict; Strong] → compare L Max = less.
Proof.
  intros HL. apply compare_less.
  by apply (elem_of_standard_below_max L) in HL as [_ HL].
Qed.

Lemma max_above_standard_witness :
  Strong ∈ [None; Ignore; Stripe; Typed; Strict; Strong] ∧
  compare Strong Max = less.
Proof.
  assert (H : Strong ∈ [None; Ignore; Stripe; Typed; Strict; Strong])
    by (vm_compute; do 5 right; left).
  split; [exact H | exact (max_above_standard Strong H)].
Defined.

(** C6.  [atLeast level threshold] is true exactly when the rank of [level]
    is greater than or equal to the rank of [threshold].  In particular a
    Strict file is at least Typed, a Typed file is not at least Strict, None
    compares less than Ignore, and the rank of Strong is 6. *)
Theorem atLeast_rank_ge :
  (∀ level threshold : t,
     atLeast level threshold = true ↔ rankOf level >= rankOf threshold)
  ∧ atLeast Strict Typed = true
  ∧ atLeast Typed Strict = false
  ∧ compare None Ignore = less
  ∧ rankOf Strong = 6.
Proof.
  split; [| by repeat split].
  intros level threshold. rewrite atLeast_true. lia.
Qed.

Lemma atLeast_rank_ge_witness :
  rankOf Autogenerated >= rankOf Strict ∧ atLeast Autogenerated Strict = true.
Proof.
  assert (H : rankOf Autogenerated >= rankOf Strict) by (vm_compute; discriminate).
  split; [exact H |].
  exact (proj2 (proj1 atLeast_rank_ge Autogenerated Strict) H).
Defined.

(** C7.  [isInternal] is true of Internal and false of each of the other
    eight levels. *)
Theorem isInternal_only_Internal :
  isInternal Internal = true
  ∧ (∀ L : t, L ≠ Internal → isInternal L = false)
  ∧ (isInternal None = false ∧ isInternal Ignore = false ∧
     isInternal Stripe = false ∧ isInternal Typed = false ∧
     isInternal Strict = false ∧ isInternal Strong = false ∧
     isInternal Max = false ∧ isInternal Autogenerated = false).
Proof.
  split; [reflexivity |]. split; [| by repeat split].
  intros L HL. apply not_true_iff_false. by rewrite isInternal_true.
Qed.

Lemma isInternal_only_Internal_witness :
  Typed ≠ Internal ∧ isInternal Typed = false.
Proof.
  split; [discriminate |].
  apply (proj1 (proj2 isInternal_only_Internal) Typed); discriminate.
Defined.

(** C8.  Every level is at least itself. *)
Theorem atLeast_refl (L : t) : atLeast L L = true.
Proof. apply atLeast_true. lia. Qed.

(** C10.  Two levels that compare equal are the same level.  No level has
    rank 8 or rank 9, and the integers that are the rank of some level are
    exactly 0, 1, 2, 3, 4, 5, 6, 7 and 10. *)
Theorem compare_equal_identity :
  (∀ a b : t, compare a b = equal → a = b)
  ∧ (∀ level : t, rankOf level ≠ 8 ∧ rankOf level ≠ 9)
  ∧ (∀ z : Z,
       (∃ level : t, rankOf level = z) ↔ z ∈ [0; 1; 2; 3; 4; 5; 6; 7; 10]).
Proof.
  split; [| split].
  - intros a b. apply compare_equal_eq.
  - intros level. destruct level; simpl; lia.
  - intros z. symmetry. apply elem_of_ranks.
Qed.

Lemma compare_equal_identity_witness :
  compare Autogenerated Autogenerated = equal ∧ Autogenerated = Autogenerated.
Proof.
  split; [reflexivity |].
  apply (proj1 compare_equal_identity Autogenerated Autogenerated); reflexivity.
Defined.

(** ** Further properties of the enumeration

    What follows is read off the header alone: the discriminants, the order
    of the declarations, and the built-in operators the enumeration comes
    with. *)

(** Autogenerated passes every threshold. *)
Lemma op_ge_Autogenerated (T : t) : op_ge Autogenerated T = true.
Proof. apply op_ge_true. destruct T; simpl; lia. Qed.

(** Where a level stands in the declaration: its discriminant, except that
    the custom level sits two above its place. *)
Lemma lookup_all_rank (i : nat) (L : t) :
  all !! i = Some L →
  rankOf L = Z.of_nat i + (if op_eq L Autogenerated then 2 else 0).
Proof.
  intros H.
  do 9 (destruct i as [| i];
        [injection H as <-; reflexivity | simpl in H]).
  discriminate H.
Qed.

(** X1.  Autogenerated is the greatest level of the built-in order: every
    level is [<=] it, and it is the only level that is [>=] it.  A check
    [level >= StrictLevel::Autogenerated] therefore selects the autogenerated
    files and no others. *)
Theorem autogenerated_greatest (L : t) :
  op_le L Autogenerated = true
  ∧ (op_ge L Autogenerated = true ↔ L = Autogenerated).
Proof.
  split.
  - apply op_le_true. destruct L; simpl; lia.
  - rewrite op_ge_true. split.
    + intros H. apply (inj rankOf). destruct L; simpl in *; lia.
    + by intros ->.
Qed.

(** X2.  The header documents Autogenerated as identical to Strict with one
    tweak.  The built-in [>=] agrees with that for the thresholds up to
    Strict and for no other: on a threshold above Strict, an Autogenerated
    file passes where a Strict file does not. *)
Theorem autogenerated_mirrors_strict (T : t) :
  (op_ge Autogenerated T = op_ge Strict T ↔ op_le T Strict = true)
  ∧ (op_gt T Strict = true →
     op_ge Autogenerated T = true ∧ op_ge Strict T = false).
Proof.
  rewrite op_ge_Autogenerated, op_le_true, op_gt_true. split.
  - rewrite <- (op_ge_true Strict T). split; intros H; by rewrite H.
  - intros H. split; [done |].
    apply not_true_iff_false. rewrite op_ge_true. lia.
Qed.

Lemma autogenerated_mirrors_strict_witness :
  op_gt Strong Strict = true ∧
  op_ge Autogenerated Strong = true ∧ op_ge Strict Strong = false.
Proof.
  split; [reflexivity |].
  apply (proj2 (autogenerated_mirrors_strict Strong)); reflexivity.
Defined.

(** X3.  The enumerators are declared from the lowest to the highest: of two
    positions in the declaration, the earlier one holds the level that is [<]
    the other. *)
Theorem declaration_order_increasing (i j : nat) (a b : t) :
  all !! i = Some a → all !! j = Some b →
  (i < j)%nat → op_lt a b = true.
Proof.
  intros Ha%lookup_all_rank Hb%lookup_all_rank Hij. apply op_lt_true.
  destruct a, b; simpl in *; lia.
Qed.

Lemma declaration_order_increasing_witness :
  all !! 7%nat = Some Max ∧ all !! 8%nat = Some Autogenerated ∧
  (7 < 8)%nat ∧ op_lt Max Autogenerated = true.
Proof.
  assert (H78 : (7 < 8)%nat) by lia.
  split; [reflexivity |]. split; [reflexivity |]. split; [exact H78 |].
  exact (declaration_order_increasing 7 8 Max Autogenerated eq_refl eq_refl H78).
Defined.



(** X5.  Threshold checks tell any two different levels apart: some
    threshold is passed by one of them and not by the other. *)
Theorem thresholds_separate (a b : t) :
  a ≠ b → ∃ T : t, op_ge a T ≠ op_ge b T.
Proof.
  intros Hab.
  assert (Hne : rankOf a ≠ rankOf b) by (intros H; by apply Hab, (inj rankOf)).
  destruct (Z.lt_ge_cases (rankOf a) (rankOf b)) as [Hlt | Hge].
  - exists b. intros H. pose proof (proj2 (op_ge_true b b)) as Hb.
    rewrite <- H, op_ge_true in Hb. lia.
  - exists a. intros H. pose proof (proj2 (op_ge_true a a)) as Ha.
    rewrite H, op_ge_true in Ha. lia.
Qed.

Lemma thresholds_separate_witness :
  Strict ≠ Autogenerated ∧ ∃ T : t, op_ge Strict T ≠ op_ge Autogenerated T.
Proof.
  split; [discriminate |].
  apply (thresholds_separate Strict Autogenerated); discriminate.
Defined.

End StrictLevel.
